(** * go-bank: token maker and authorization middleware

    Shallow embedding of the authentication core of go-bank:
    - [token/jwt_maker.go]: [NewJWTMaker], [CreateToken], [VerifyToken];
    - the parts of golang-jwt/jwt v4 that [VerifyToken] and [CreateToken]
      go through ([ParseWithClaims], the signing-method registry, the
      [Verify] methods, [ValidationError] and [errors.Is]);
    - [api/handlers/middleware.go]: [authMiddleware];
    - the payload ([NewPayload], [Valid]) and the owner check of the
      account handlers, which are not in the sources at hand and are
      modelled from the spec.

    Go results of the shape (pointer, error) are pairs of options ([None] is [nil]).
    Time is an explicit clock reading [now : Z]; [time.Duration] is [Z]. *)

From Stdlib Require Import String Ascii List ZArith Bool Lia.
Set Warnings "-register-all".

Import ListNotations.
Open Scope string_scope.
Open Scope Z_scope.

(** ** Errors *)

(** Go error values that flow through the core.  Sentinels created once
    with [errors.New] are nullary constructors; [ErrText] is an error
    built on the spot ([errors.New] / [fmt.Errorf] in the middleware);
    [ValidationError] is jwt's [*ValidationError] with its [Inner],
    [Errors] (bit flags) and text fields. *)
Inductive GoErr : Type :=
  | ErrTokenInvalid                 (* token.ErrTokenInvalid *)
  | ErrTokenExpired                 (* token.ErrTokenExpired *)
  | ErrInvalidIdentity              (* NewPayload, empty identity *)
  | ErrIdGeneration                 (* NewPayload, random id failure *)
  | ErrSecretKeyLen (min : Z)       (* NewJWTMaker's fmt.Errorf *)
  | ErrText (msg : string)
  | ErrInvalidKey                   (* jwt.ErrInvalidKey *)
  | ErrInvalidKeyType               (* jwt.ErrInvalidKeyType *)
  | ErrSignatureInvalid             (* jwt.ErrSignatureInvalid *)
  | NoneSignatureTypeDisallowedError
  | ErrCorruptInput                 (* base64.CorruptInputError *)
  | ErrJSONSyntax                   (* encoding/json decode error *)
  | JwtSentinel (flag : Z)          (* jwt.ErrTokenMalformed, ... by flag *)
  | ValidationError (Inner : option GoErr) (Errors : Z) (text : string).

(** jwt v4 validation flags. *)
Definition ValidationErrorMalformed : Z := 1.
Definition ValidationErrorUnverifiable : Z := 2.
Definition ValidationErrorSignatureInvalid : Z := 4.
Definition ValidationErrorClaimsInvalid : Z := 512.

(** Go's [==] on two error values: sentinels compare equal to
    themselves; errors allocated on the spot ([errors.New],
    [fmt.Errorf], [&ValidationError{...}]) are distinct pointers. *)
Definition sameErr (a b : GoErr) : bool :=
  match a, b with
  | ErrTokenInvalid, ErrTokenInvalid
  | ErrTokenExpired, ErrTokenExpired
  | ErrInvalidIdentity, ErrInvalidIdentity
  | ErrIdGeneration, ErrIdGeneration
  | ErrInvalidKey, ErrInvalidKey
  | ErrInvalidKeyType, ErrInvalidKeyType
  | ErrSignatureInvalid, ErrSignatureInvalid
  | NoneSignatureTypeDisallowedError, NoneSignatureTypeDisallowedError
  | ErrCorruptInput, ErrCorruptInput => true
  | JwtSentinel f, JwtSentinel g => Z.eqb f g
  | _, _ => false
  end.

(** [errors.Is(err, target)]: compare, then ask the [Is] method of
    [*ValidationError] (which tests [Inner] and, for jwt's own sentinels,
    the flags), then unwrap to [Inner]. *)
Fixpoint errorsIs (err target : GoErr) : bool :=
  sameErr err target ||
  match err with
  | ValidationError inner flags _ =>
      match inner with Some i => errorsIs i target | None => false end
      || match target with
         | JwtSentinel f => negb (Z.eqb (Z.land flags f) 0)
         | _ => false
         end
  | _ => false
  end.

(** ** Payload (token/payload.go) *)

Record Payload : Type := mkPayload {
  ID : string;
  Username : string;
  IssuedAt : Z;
  ExpireAt : Z
}.

(** Modelled from the spec: [NewPayload] (token/payload.go is not in the
    sources).  "Fails with InvalidIdentity if identity is empty, and with
    IdGenerationError if random-id generation fails"; otherwise
    [issuedAt = now], [expiresAt = now + duration].  [newID] is the
    outcome of the random id generator. *)
Definition NewPayload (username : string) (duration now : Z)
    (newID : option string) : option Payload * option GoErr :=
  if String.eqb username "" then (None, Some ErrInvalidIdentity)
  else match newID with
       | None => (None, Some ErrIdGeneration)
       | Some id => (Some (mkPayload id username now (now + duration)), None)
       end.

(** Modelled from the spec: [Payload.Valid] — "returns TokenExpired if
    now > expiresAt; otherwise ok". *)
Definition Valid (now : Z) (p : Payload) : option GoErr :=
  if now >? ExpireAt p then Some ErrTokenExpired else None.

(** ** Strings *)

Definition string_of_rev (cur : list ascii) : string :=
  string_of_list_ascii (rev cur).

(** [strings.Split(s, ".")]: every dot separates; [""] gives [[""]]. *)
Fixpoint splitDotAux (s : string) (cur : list ascii) : list string :=
  match s with
  | EmptyString => [string_of_rev cur]
  | String c s' =>
      if Ascii.eqb c "." then string_of_rev cur :: splitDotAux s' []
      else splitDotAux s' (c :: cur)
  end.

Definition splitDot (s : string) : list string := splitDotAux s [].

(** *** UTF-8 (Go's unicode/utf8) *)

Definition byteZ (c : ascii) : Z := Z.of_N (N_of_ascii c).

Definition byteOf (z : Z) : ascii := ascii_of_N (Z.to_N z).

Definition RuneError : Z := 65533.    (* U+FFFD *)
Definition RuneSelf : Z := 128.
Definition MaxRune : Z := 1114111.    (* U+10FFFF *)

(** The [first] and [acceptRanges] tables of [utf8]: for a lead byte
    that is neither ASCII nor invalid, the length of its sequence and
    the range allowed for the second byte. *)
Definition leadInfo (b0 : Z) : option (nat * Z * Z) :=
  if b0 <? 194 then None                          (* 0x80-0xC1: xx *)
  else if b0 <=? 223 then Some (2%nat, 128, 191)   (* 0xC2-0xDF: s1 *)
  else if b0 =? 224 then Some (3%nat, 160, 191)    (* 0xE0: s2 *)
  else if b0 =? 237 then Some (3%nat, 128, 159)    (* 0xED: s4 *)
  else if b0 <=? 239 then Some (3%nat, 128, 191)   (* 0xE1-0xEF: s3 *)
  else if b0 =? 240 then Some (4%nat, 144, 191)    (* 0xF0: s5 *)
  else if b0 <=? 243 then Some (4%nat, 128, 191)   (* 0xF1-0xF3: s6 *)
  else if b0 =? 244 then Some (4%nat, 128, 143)    (* 0xF4: s7 *)
  else None.                                       (* 0xF5-0xFF: xx *)

(** A continuation byte: between [locb] = 0x80 and [hicb] = 0xBF. *)
Definition isCont (b : Z) : bool := (128 <=? b) && (b <=? 191).

(** [utf8.DecodeRuneInString]: the first rune of [s] and its width;
    [(RuneError, 1)] on an invalid or truncated sequence,
    [(RuneError, 0)] on the empty string. *)
Definition decodeRune (s : string) : Z * nat :=
  match s with
  | EmptyString => (RuneError, 0%nat)
  | String c0 s1 =>
    let b0 := byteZ c0 in
    if b0 <? RuneSelf then (b0, 1%nat) else
    match leadInfo b0 with
    | None => (RuneError, 1%nat)
    | Some (sz, lo, hi) =>
      if (String.length s <? sz)%nat then (RuneError, 1%nat) else
      match s1 with
      | EmptyString => (RuneError, 1%nat)
      | String c1 s2 =>
        let b1 := byteZ c1 in
        if (b1 <? lo) || (hi <? b1) then (RuneError, 1%nat) else
        if (sz <=? 2)%nat then
          (Z.lor (Z.shiftl (Z.land b0 31) 6) (Z.land b1 63), 2%nat) else
        match s2 with
        | EmptyString => (RuneError, 1%nat)
        | String c2 s3 =>
          let b2 := byteZ c2 in
          if negb (isCont b2) then (RuneError, 1%nat) else
          if (sz <=? 3)%nat then
            (Z.lor (Z.lor (Z.shiftl (Z.land b0 15) 12) (Z.shiftl (Z.land b1 63) 6))
                   (Z.land b2 63), 3%nat) else
          match s3 with
          | EmptyString => (RuneError, 1%nat)
          | String c3 _ =>
            let b3 := byteZ c3 in
            if negb (isCont b3) then (RuneError, 1%nat) else
            (Z.lor (Z.lor (Z.lor (Z.shiftl (Z.land b0 7) 18) (Z.shiftl (Z.land b1 63) 12))
                          (Z.shiftl (Z.land b2 63) 6))
                   (Z.land b3 63), 4%nat)
          end
        end
      end
    end
  end.

(** [s[:n], s[n:]]. *)
Fixpoint splitAt (n : nat) (s : string) : string * string :=
  match n, s with
  | O, _ => (EmptyString, s)
  | S _, EmptyString => (EmptyString, EmptyString)
  | S n', String c s' => let '(a, b) := splitAt n' s' in (String c a, b)
  end.

(** [for _, r := range s]: each rune with the bytes it was decoded
    from, an invalid byte giving [RuneError] and one byte.  Every step
    takes at least one byte, so [String.length s] steps suffice. *)
Fixpoint runesAux (fuel : nat) (s : string) : list (Z * string) :=
  match fuel with
  | O => []
  | S fuel' =>
      match s with
      | EmptyString => []
      | _ =>
          let '(r, w) := decodeRune s in
          let '(bs, rest) := splitAt w s in
          (r, bs) :: runesAux fuel' rest
      end
  end.

Definition runes (s : string) : list (Z * string) := runesAux (String.length s) s.

(** [utf8.ValidString]: no position decodes to [(RuneError, 1)]. *)
Definition validUTF8 (s : string) : bool :=
  forallb (fun '(r, bs) => negb ((r =? RuneError) && (String.length bs =? 1)%nat))
    (runes s).

(** [utf8.AppendRune]: negative runes, surrogates and runes above
    [MaxRune] are written as [RuneError]. *)
Definition encodeRune (r : Z) : string :=
  if (0 <=? r) && (r <=? 127) then String (byteOf r) EmptyString
  else if (0 <=? r) && (r <=? 2047) then
    String (byteOf (Z.lor 192 (Z.shiftr r 6)))
      (String (byteOf (Z.lor 128 (Z.land r 63))) EmptyString)
  else
    let r := if (r <? 0) || (MaxRune <? r) || ((55296 <=? r) && (r <=? 57343))
             then RuneError else r in
    if r <=? 65535 then
      String (byteOf (Z.lor 224 (Z.shiftr r 12)))
        (String (byteOf (Z.lor 128 (Z.land (Z.shiftr r 6) 63)))
          (String (byteOf (Z.lor 128 (Z.land r 63))) EmptyString))
    else
      String (byteOf (Z.lor 240 (Z.shiftr r 18)))
        (String (byteOf (Z.lor 128 (Z.land (Z.shiftr r 12) 63)))
          (String (byteOf (Z.lor 128 (Z.land (Z.shiftr r 6) 63)))
            (String (byteOf (Z.lor 128 (Z.land r 63))) EmptyString))).

(** [unicode.IsSpace]: the Latin-1 switch, then the [White_Space]
    table above Latin-1. *)
Definition IsSpace (r : Z) : bool :=
  if (0 <=? r) && (r <=? 255) then
    ((9 <=? r) && (r <=? 13)) || (r =? 32) || (r =? 133) || (r =? 160)
  else
    (r =? 5760) || ((8192 <=? r) && (r <=? 8202)) || (r =? 8232) || (r =? 8233)
    || (r =? 8239) || (r =? 8287) || (r =? 12288).

(** [strings.Map(mapping, s)], rune by rune: a rune the mapping keeps
    (a valid [U+FFFD] included) keeps its bytes; any other rune, an
    invalid byte among them, is replaced by the encoding of its image,
    or dropped when the image is negative. *)
Definition mapRunes (mapping : Z -> Z) (s : string) : string :=
  String.concat ""
    (map (fun '(c, bs) =>
            let r := mapping c in
            if (r =? c) && (negb (c =? RuneError) || negb (String.length bs =? 1)%nat)
            then bs
            else if 0 <=? r then encodeRune r else EmptyString)
         (runes s)).

(** No byte of [s] is [>= utf8.RuneSelf]. *)
Fixpoint isASCII (s : string) : bool :=
  match s with
  | EmptyString => true
  | String c s' => (byteZ c <? RuneSelf) && isASCII s'
  end.

(** The string [encoding/json] gives back for [s] after a marshal and
    unmarshal: the encoder copies valid runes and writes the escape \ufffd for
    every byte that [utf8.DecodeRuneInString] reports as
    [(RuneError, 1)]. *)
Definition jsonString (s : string) : string :=
  String.concat ""
    (map (fun '(r, bs) =>
            if (r =? RuneError) && (String.length bs =? 1)%nat
            then encodeRune RuneError else bs)
         (runes s)).

(** ** golang-jwt/jwt v4 *)

Inductive SigningMethod : Type :=
  | SigningMethodHMAC (bits : Z)
  | SigningMethodRSA (bits : Z)
  | SigningMethodRSAPSS (bits : Z)
  | SigningMethodECDSA (bits : Z)
  | SigningMethodEd25519
  | SigningMethodNone.

(** The registry behind [jwt.GetSigningMethod]. *)
Definition GetSigningMethod (alg : string) : option SigningMethod :=
  if String.eqb alg "HS256" then Some (SigningMethodHMAC 256)
  else if String.eqb alg "HS384" then Some (SigningMethodHMAC 384)
  else if String.eqb alg "HS512" then Some (SigningMethodHMAC 512)
  else if String.eqb alg "RS256" then Some (SigningMethodRSA 256)
  else if String.eqb alg "RS384" then Some (SigningMethodRSA 384)
  else if String.eqb alg "RS512" then Some (SigningMethodRSA 512)
  else if String.eqb alg "PS256" then Some (SigningMethodRSAPSS 256)
  else if String.eqb alg "PS384" then Some (SigningMethodRSAPSS 384)
  else if String.eqb alg "PS512" then Some (SigningMethodRSAPSS 512)
  else if String.eqb alg "ES256" then Some (SigningMethodECDSA 256)
  else if String.eqb alg "ES384" then Some (SigningMethodECDSA 384)
  else if String.eqb alg "ES512" then Some (SigningMethodECDSA 512)
  else if String.eqb alg "EdDSA" then Some SigningMethodEd25519
  else if String.eqb alg "none" then Some SigningMethodNone
  else None.

(** The key handed to [Verify].  The maker's key function only ever
    returns [[]byte(secretKey)], so that is the one key shape modelled;
    the asymmetric methods' type assertions fail on it. *)
Inductive Key : Type := KeyBytes (b : string).

(** The byte-level primitives jwt relies on: base64url segment coding,
    JSON coding of the header and of the claims, and HMAC.  They are kept
    abstract; results quantify over them. *)
Record Codec : Type := {
  EncodeSegment : string -> string;
  DecodeSegment : string -> option string;
  MarshalHeader : string -> string;                 (* {"alg":a,"typ":"JWT"} *)
  UnmarshalHeaderAlg : string -> option (option string);
    (* None: JSON error; Some None: no string "alg" *)
  MarshalPayload : Payload -> string;
  UnmarshalPayload : string -> option Payload;
  HmacSum : Z -> string -> string -> string         (* hash bits, key, message *)
}.

Section Jwt.
Variable cd : Codec.

(** [(SigningMethod).Verify(signingString, signature, key)]. *)
Definition Verify (m : SigningMethod) (signingString signature : string)
    (key : Key) : option GoErr :=
  match m, key with
  | SigningMethodHMAC bits, KeyBytes kb =>
      match DecodeSegment cd signature with
      | None => Some ErrCorruptInput
      | Some sig =>
          if String.eqb sig (HmacSum cd bits kb signingString) then None
          else Some ErrSignatureInvalid
      end
  | SigningMethodRSA _, KeyBytes _ =>
      (* decode the signature, then the rsa.PublicKey type assertion fails *)
      match DecodeSegment cd signature with
      | None => Some ErrCorruptInput
      | Some _ => Some ErrInvalidKeyType
      end
  | SigningMethodRSAPSS _, KeyBytes _ =>
      match DecodeSegment cd signature with
      | None => Some ErrCorruptInput
      | Some _ => Some ErrInvalidKey
      end
  | SigningMethodECDSA _, KeyBytes _ =>
      match DecodeSegment cd signature with
      | None => Some ErrCorruptInput
      | Some _ => Some ErrInvalidKeyType
      end
  | SigningMethodEd25519, KeyBytes _ => Some ErrInvalidKeyType
  | SigningMethodNone, KeyBytes _ => Some NoneSignatureTypeDisallowedError
  end.

Definition malformed (inner : option GoErr) (text : string)
    : option Payload * option GoErr :=
  (None, Some (ValidationError inner ValidationErrorMalformed text)).

Definition unverifiable (text : string) : option Payload * option GoErr :=
  (None, Some (ValidationError None ValidationErrorUnverifiable text)).

(** [jwt.ParseWithClaims(tokenString, &Payload{}, keyFunc)] with the
    default parser: [ParseUnverified], key lookup, claims validation
    ([Valid] at clock [now]), then signature verification, whose error
    overwrites [Inner].  The first component is the token's claims; the
    caller ignores it whenever the error is not [nil]. *)
Definition ParseWithClaims (now : Z) (tokenString : string)
    (keyFunc : SigningMethod -> Key + GoErr) : option Payload * option GoErr :=
  match splitDot tokenString with
  | [h; c; s] =>
      match DecodeSegment cd h with
      | None => malformed (Some ErrCorruptInput) ""
      | Some hb =>
      match UnmarshalHeaderAlg cd hb with
      | None => malformed (Some ErrJSONSyntax) ""
      | Some oalg =>
      match DecodeSegment cd c with
      | None => malformed (Some ErrCorruptInput) ""
      | Some cb =>
      match UnmarshalPayload cd cb with
      | None => malformed (Some ErrJSONSyntax) ""
      | Some claims =>
      match oalg with
      | None => unverifiable "signing method (alg) is unspecified."
      | Some alg =>
      match GetSigningMethod alg with
      | None => unverifiable "signing method (alg) is unavailable."
      | Some m =>
      match keyFunc m with
      | inr kerr =>
          match kerr with
          | ValidationError _ _ _ => (Some claims, Some kerr)
          | _ => (Some claims,
                  Some (ValidationError (Some kerr) ValidationErrorUnverifiable ""))
          end
      | inl key =>
          let '(inner, flags, text) :=
            match Valid now claims with
            | None => (None, 0, "")
            | Some (ValidationError i f t) => (i, f, t)
            | Some e => (Some e, ValidationErrorClaimsInvalid, "")
            end in
          let '(inner, flags) :=
            match Verify m (h ++ "." ++ c) s key with
            | Some e => (Some e, Z.lor flags ValidationErrorSignatureInvalid)
            | None => (inner, flags)
            end in
          if Z.eqb flags 0 then (Some claims, None)
          else (Some claims, Some (ValidationError inner flags text))
      end end end end end end end
  | _ => malformed None "token contains an invalid number of segments"
  end.

End Jwt.

(** ** JWT maker (token/jwt_maker.go) *)

Definition minSecretKeyLen : Z := 32.

Record JWTMaker : Type := { secretKey : string }.

Definition NewJWTMaker (key : string) : option JWTMaker * option GoErr :=
  if Z.of_nat (String.length key) <? minSecretKeyLen
  then (None, Some (ErrSecretKeyLen minSecretKeyLen))
  else (Some {| secretKey := key |}, None).

(** The key function of [VerifyToken]: ECDSA is refused, every other
    method gets the secret as bytes. *)
Definition keyFunc (jwtMaker : JWTMaker) (m : SigningMethod) : Key + GoErr :=
  match m with
  | SigningMethodECDSA _ => inr ErrTokenInvalid
  | _ => inl (KeyBytes (secretKey jwtMaker))
  end.

Definition VerifyToken (cd : Codec) (jwtMaker : JWTMaker) (now : Z)
    (token : string) : option Payload * option GoErr :=
  match ParseWithClaims cd now token (keyFunc jwtMaker) with
  | (_, Some err) =>
      match err with
      | ValidationError _ _ _ =>
          if errorsIs err ErrTokenExpired then (None, Some ErrTokenExpired)
          else (None, Some ErrTokenInvalid)
      | _ => (None, Some ErrTokenInvalid)
      end
  | (claims, None) =>
      match claims with
      | Some payload => (Some payload, None)
      | None => (None, Some ErrTokenInvalid)
      end
  end.

(** [Token.SigningString]: header and claims, each JSON-encoded and then
    base64url-encoded, joined by a dot. *)
Definition SigningString (cd : Codec) (alg : string) (p : Payload) : string :=
  EncodeSegment cd (MarshalHeader cd alg) ++ "."
  ++ EncodeSegment cd (MarshalPayload cd p).

(** [jwt.NewWithClaims(jwt.SigningMethodHS512, payload).SignedString(key)]:
    the HMAC-SHA512 [Sign] of the signing string with a [[]byte] key
    never fails. *)
Definition SignedStringHS512 (cd : Codec) (key : string) (p : Payload) : string :=
  let sstr := SigningString cd "HS512" p in
  sstr ++ "." ++ EncodeSegment cd (HmacSum cd 512 key sstr).

(** [CreateToken] with its duration as a parameter: the body of
    [JWTMaker.CreateToken], which passes [AccessTokenExpiration]
    (see [CreateToken] below); the Maker used by the middleware tests
    takes the duration as an argument. *)
Definition CreateTokenFor (cd : Codec) (jwtMaker : JWTMaker)
    (username : string) (duration now : Z) (newID : option string)
    : string * option Payload * option GoErr :=
  match NewPayload username duration now newID with
  | (payload, Some err) => ("", payload, Some err)
  | (None, None) => ("", None, None)
  | (Some payload, None) =>
      (SignedStringHS512 cd (secretKey jwtMaker) payload, Some payload, None)
  end.

Section CreateTokenSec.
Variable AccessTokenExpiration : Z.

Definition CreateToken (cd : Codec) (jwtMaker : JWTMaker) (username : string)
    (now : Z) (newID : option string) : string * option Payload * option GoErr :=
  CreateTokenFor cd jwtMaker username AccessTokenExpiration now newID.
End CreateTokenSec.

(** ** Authorization middleware (api/handlers/middleware.go) *)

Definition authorizationHeaderKey : string := "authorization".
Definition authorizationTypeBearer : string := "bearer".
Definition authorizationPayloadKey : string := "payload".
Definition StatusUnauthorized : Z := 401.

(** The byte set of [strings.Fields] on ASCII input ([asciiSpace]):
    '\t', '\n', '\v', '\f', '\r' and ' '. *)
Definition isAsciiSpace (c : ascii) : bool :=
  let n := nat_of_ascii c in
  ((9 <=? n)%nat && (n <=? 13)%nat) || (n =? 32)%nat.

(** The ASCII path of [strings.Fields]: maximal runs of bytes outside
    [asciiSpace]. *)
Fixpoint fieldsAux (s : string) (cur : list ascii) : list string :=
  match s with
  | EmptyString =>
      match cur with [] => [] | _ => [string_of_rev cur] end
  | String c s' =>
      if isAsciiSpace c then
        match cur with
        | [] => fieldsAux s' []
        | _ => string_of_rev cur :: fieldsAux s' []
        end
      else fieldsAux s' (c :: cur)
  end.

(** [strings.FieldsFunc(s, f)] over the runes of [s]: [start] is the
    field being read, [None] for Go's [start < 0]; a field is the bytes
    of its runes, [s[start:end]]. *)
Fixpoint fieldsFuncAux (f : Z -> bool) (rs : list (Z * string)) (start : option string)
    : list string :=
  match rs with
  | [] => match start with Some fld => [fld] | None => [] end
  | (r, bs) :: rs' =>
      if f r then
        match start with
        | Some fld => fld :: fieldsFuncAux f rs' None
        | None => fieldsFuncAux f rs' None
        end
      else
        fieldsFuncAux f rs'
          (Some (match start with Some fld => fld ++ bs | None => bs end))
  end.

Definition FieldsFunc (s : string) (f : Z -> bool) : list string :=
  fieldsFuncAux f (runes s) None.

(** [strings.Fields]: when some byte is [>= utf8.RuneSelf] it is
    [FieldsFunc(s, unicode.IsSpace)], otherwise the ASCII path. *)
Definition Fields (s : string) : list string :=
  if isASCII s then fieldsAux s [] else FieldsFunc s IsSpace.

Definition lowerAscii (c : ascii) : ascii :=
  let n := nat_of_ascii c in
  if (65 <=? n)%nat && (n <=? 90)%nat then ascii_of_nat (n + 32) else c.

(** The ASCII path of [strings.ToLower]: 'A'-'Z' lowered byte by byte
    (the input itself when it has no upper-case byte). *)
Fixpoint toLowerASCII (s : string) : string :=
  match s with
  | EmptyString => EmptyString
  | String c s' => String (lowerAscii c) (toLowerASCII s')
  end.

Section Middleware.

(** [unicode.ToLower] on one rune, Go's Unicode case tables.  The
    tables are not written out here: the definitions below take the
    rune mapping as a parameter, and every statement about them holds
    for every mapping. *)
Variable unicodeToLower : Z -> Z.

(** [strings.ToLower]: the ASCII path when no byte is [>= utf8.RuneSelf],
    otherwise [strings.Map(unicode.ToLower, s)]. *)
Definition ToLower (s : string) : string :=
  if isASCII s then toLowerASCII s else mapRunes unicodeToLower s.

(** Outcome of the handler on one request: aborted with a status and an
    error ([ctx.AbortWithStatusJSON(status, errorResponse(err))]), passed
    on with the payload stored under [authorizationPayloadKey]
    ([ctx.Set] then [ctx.Next]), or a Go run-time panic. *)
Inductive Response : Type :=
  | Abort (status : Z) (err : GoErr)
  | Next (payload : option Payload)
  | Panic (reason : string).

Definition nilDereference : string :=
  "runtime error: invalid memory address or nil pointer dereference".

(** Lines 50-59 of the middleware, from the result of
    [tokenMaker.VerifyToken(accessToken)] on: [log.Println(payload.ExpireAt)]
    reads a field through the returned pointer before [err] is looked
    at; on a [nil] payload that is a nil pointer dereference. *)
Definition verifyStep (res : option Payload * option GoErr) : Response :=
  let '(payload, err) := res in
  match payload with
  | None => Panic nilDereference
  | Some p =>
      (* log.Println(payload.ExpireAt); log.Println(time.Now()) *)
      match err with
      | Some e => Abort StatusUnauthorized e
      | None => Next (Some p)
      end
  end.

(** [authMiddleware(tokenMaker)] applied to a request whose
    [authorization] header is [authorizationHeader] ([""] when absent,
    as [ctx.GetHeader] returns).  [verifyToken] is
    [tokenMaker.VerifyToken]. *)
Definition authMiddleware (verifyToken : string -> option Payload * option GoErr)
    (authorizationHeader : string) : Response :=
  if Nat.eqb (String.length authorizationHeader) 0 then
    Abort StatusUnauthorized (ErrText "authorization header not provided")
  else
  let fields := Fields authorizationHeader in
  if (List.length fields <? 2)%nat then
    Abort StatusUnauthorized (ErrText "invalid authorization format")
  else
  let authorizationType := ToLower (nth 0 fields "") in
  if negb (String.eqb authorizationType authorizationTypeBearer) then
    Abort StatusUnauthorized
      (ErrText ("unsupported authorization type " ++ authorizationType))
  else
  let accessToken := nth 1 fields "" in
  verifyStep (verifyToken accessToken).

End Middleware.

(** ** Owner check of the account handlers *)

Record Account : Type := mkAccount {
  AccountID : Z;
  Owner : string;
  Balance : Z;
  Currency : string
}.

Inductive DbErr : Type := ErrNoRows | ErrConnDone.

(** The data-access collaborator ([db.Store]) as the mock of the tests
    answers it. *)
Record Store : Type := {
  GetAccount : Z -> Account + DbErr;
  DeleteAccount : Z -> option DbErr
}.

Inductive StoreCall : Type :=
  | CallGetAccount (id : Z)
  | CallDeleteAccount (id : Z).

(** Modelled from the spec: the [deleteAccount] handler (only its test
    [TestDeleteAccount] is in the sources).  The id must be at least 1
    (400 otherwise); "Load the resource by its identifier ... If not
    found, signal NotFound — independent of auth" (404, other store
    errors 500); "Compare resource's owner field to the Payload's
    identity ... Mismatch → Unauthorized (... the source maps it to 401)";
    on a match the account is deleted (200, or 500 on a store error).
    The result is the status and the store calls made, in order. *)
Definition deleteAccount (store : Store) (payload : Payload) (id : Z)
    : Z * list StoreCall :=
  if id <? 1 then (400, [])
  else
  match GetAccount store id with
  | inr ErrNoRows => (404, [CallGetAccount id])
  | inr _ => (500, [CallGetAccount id])
  | inl account =>
      if negb (String.eqb (Owner account) (Username payload)) then
        (StatusUnauthorized, [CallGetAccount id])
      else
      match DeleteAccount store id with
      | None => (200, [CallGetAccount id; CallDeleteAccount id])
      | Some _ => (500, [CallGetAccount id; CallDeleteAccount id])
      end
  end.

(** ** A concrete codec for evaluation

    A toy instance of [Codec] used to run the definitions on concrete
    tokens: segments are carried verbatim, the header is the algorithm
    name, the claims segment is the username of a fixed payload shape,
    and the "HMAC" is the key followed by a mark of the hash size and the
    message with its dots dropped.  [exp] is the expiry of the decoded
    payloads. *)
Definition demoCodecExp (exp : Z) : Codec := {|
  EncodeSegment := fun s => s;
  DecodeSegment := fun s => Some s;
  MarshalHeader := fun alg => alg;
  UnmarshalHeaderAlg := fun s => Some (Some s);
  MarshalPayload := fun p => Username p;
  UnmarshalPayload := fun s => Some (mkPayload "1" s 0 exp);
  HmacSum := fun bits key msg =>
    key ++ (if Z.eqb bits 512 then "H" else "h") ++ String.concat "" (splitDot msg)
|}.

Definition demoCodec : Codec := demoCodecExp 100.

Definition demoPayload : Payload := mkPayload "1" "alice" 0 100.

Definition demoMaker : JWTMaker :=
  {| secretKey := "0123456789abcdef0123456789abcdef" |}.

Definition demoAccount : Account := mkAccount 7 "alice" 100 "USD".

Definition demoStore : Store := {|
  GetAccount := fun id => if Z.eqb id 7 then inl demoAccount else inr ErrNoRows;
  DeleteAccount := fun _ => None
|}.

(** The concrete codec with JSON decoding as [encoding/json] does it:
    the username comes back as [jsonString] of the segment. *)
Definition demoJSONCodec : Codec := {|
  EncodeSegment := EncodeSegment demoCodec;
  DecodeSegment := DecodeSegment demoCodec;
  MarshalHeader := MarshalHeader demoCodec;
  UnmarshalHeaderAlg := UnmarshalHeaderAlg demoCodec;
  MarshalPayload := MarshalPayload demoCodec;
  UnmarshalPayload := fun s => Some (mkPayload "1" (jsonString s) 0 100);
  HmacSum := HmacSum demoCodec
|}.

(** A rune mapping to run [ToLower] on concrete headers: the ASCII
    letters of [unicode.ToLower], every other rune unchanged. *)
Definition demoToLower (r : Z) : Z :=
  if (65 <=? r) && (r <=? 90) then r + 32 else r.

(** U+00A0, no-break space: the bytes C2 A0. *)
Definition nbsp : string := String (ascii_of_nat 194) (String (ascii_of_nat 160) "").

(** ** Properties used in the statements *)

(** The header claims an algorithm of the HMAC family. *)
Definition claimsHMAC (oalg : option string) : bool :=
  match oalg with
  | Some alg =>
      match GetSigningMethod alg with
      | Some (SigningMethodHMAC _) => true
      | _ => false
      end
  | None => false
  end.

Fixpoint noDot (s : string) : bool :=
  match s with
  | EmptyString => true
  | String c s' => negb (Ascii.eqb c ".") && noDot s'
  end.

(** base64url decoding inverts encoding, and an encoded segment has no
    dot. *)
Definition SegmentRoundTrip (cd : Codec) (b : string) : Prop :=
  DecodeSegment cd (EncodeSegment cd b) = Some b
  /\ noDot (EncodeSegment cd b) = true.


(** The [Payload] that [encoding/json] gives back for [p]: the uuid and
    the two times come back as they were, the username as
    [jsonString] of it. *)
Definition jsonPayload (p : Payload) : Payload :=
  mkPayload (ID p) (jsonString (Username p)) (IssuedAt p) (ExpireAt p).

(** The codec laws at the values one HS512 token for [p] is made of,
    with JSON decoding giving back [jsonPayload p]: the three segments
    decode back and the header names HS512. *)
Definition JSONCodecAt (cd : Codec) (key : string) (p : Payload) : Prop :=
  SegmentRoundTrip cd (MarshalHeader cd "HS512")
  /\ SegmentRoundTrip cd (MarshalPayload cd p)
  /\ SegmentRoundTrip cd (HmacSum cd 512 key (SigningString cd "HS512" p))
  /\ UnmarshalHeaderAlg cd (MarshalHeader cd "HS512") = Some (Some "HS512")
  /\ UnmarshalPayload cd (MarshalPayload cd p) = Some (jsonPayload p).

(** The token is well formed, claims an HMAC algorithm, carries the
    HMAC of its first two segments under [key], and its payload has
    expired at [now]. *)
Definition AuthenticExpired (cd : Codec) (key : string) (now : Z)
    (tok : string) : Prop :=
  exists h c s hb alg bits cb p,
    splitDot tok = [h; c; s]
    /\ DecodeSegment cd h = Some hb
    /\ UnmarshalHeaderAlg cd hb = Some (Some alg)
    /\ GetSigningMethod alg = Some (SigningMethodHMAC bits)
    /\ DecodeSegment cd c = Some cb
    /\ UnmarshalPayload cd cb = Some p
    /\ DecodeSegment cd s = Some (HmacSum cd bits key (h ++ "." ++ c))
    /\ Valid now p = Some ErrTokenExpired.

(** What [VerifyToken] checks, in the order the parser meets it: three
    dot-separated segments, a decodable header and claims, an HMAC
    algorithm and a signature equal to the HMAC of the first two segments
    under [key].  The payload of a token that passes. *)
Definition authenticPayload (cd : Codec) (key tok : string) : option Payload :=
  match splitDot tok with
  | [h; c; s] =>
      match DecodeSegment cd h with
      | None => None
      | Some hb =>
      match UnmarshalHeaderAlg cd hb with
      | None => None
      | Some oalg =>
      match DecodeSegment cd c with
      | None => None
      | Some cb =>
      match UnmarshalPayload cd cb with
      | None => None
      | Some p =>
      match oalg with
      | None => None
      | Some alg =>
      match GetSigningMethod alg with
      | Some (SigningMethodHMAC bits) =>
          match DecodeSegment cd s with
          | Some sig =>
              if String.eqb sig (HmacSum cd bits key (h ++ "." ++ c))
              then Some p else None
          | None => None
          end
      | _ => None
      end end end end end end
  | _ => None
  end.

(** No byte of [s] is ASCII whitespace. *)
Fixpoint noSpace (s : string) : bool :=
  match s with
  | EmptyString => true
  | String c s' => negb (isAsciiSpace c) && noSpace s'
  end.

Example demo_roundtrip :
  let '(tok, _, _) := CreateTokenFor demoCodec demoMaker "alice" 100 0 (Some "1") in
  VerifyToken demoCodec demoMaker 0 tok = (Some (mkPayload "1" "alice" 0 100), None).
Proof. vm_compute. reflexivity. Qed.

Example demo_expired :
  let '(tok, _, _) := CreateTokenFor demoCodec demoMaker "alice" 100 0 (Some "1") in
  VerifyToken demoCodec demoMaker 101 tok = (None, Some ErrTokenExpired).
Proof. vm_compute. reflexivity. Qed.

Example demo_mw_ok :
  authMiddleware demoToLower (VerifyToken demoCodec demoMaker 0)
    "Bearer HS512.alice.0123456789abcdef0123456789abcdefHHS512alice"
  = Next (Some (mkPayload "1" "alice" 0 100)).
Proof. vm_compute. reflexivity. Qed.

Example demo_mw_bad :
  authMiddleware demoToLower (VerifyToken demoCodec demoMaker 0) "Bearer abc"
  = Panic nilDereference.
Proof. vm_compute. reflexivity. Qed.

Example demo_fields_unicode :
  Fields ("Bearer" ++ nbsp ++ "tok") = ["Bearer"; "tok"]
  /\ Fields ("Bearer a" ++ nbsp ++ "b c") = ["Bearer"; "a"; "b"; "c"]
  /\ Fields (" Bearer" ++ String (ascii_of_nat 255) "x  y ") = ["Bearer" ++ String (ascii_of_nat 255) "x"; "y"].
Proof. vm_compute. repeat split. Qed.

Example demo_json_identity :
  let u := String (ascii_of_nat 255) "" in
  let '(tok, _, _) := CreateTokenFor demoJSONCodec demoMaker u 100 0 (Some "1") in
  VerifyToken demoJSONCodec demoMaker 0 tok
  = (Some (mkPayload "1" (encodeRune RuneError) 0 100), None)
  /\ encodeRune RuneError <> u.
Proof. vm_compute. split; [reflexivity | discriminate]. Qed.

Example demo_json_string :
  jsonString "alice" = "alice"
  /\ jsonString (String (ascii_of_nat 255) "") = encodeRune RuneError
  /\ validUTF8 ("a" ++ nbsp) = true
  /\ validUTF8 (String (ascii_of_nat 255) "") = false.
Proof. vm_compute. repeat split. Qed.

(** ** Results *)

(** *** Helper lemmas *)

Lemma length_zero_empty : forall s : string,
  Nat.eqb (String.length s) 0 = true -> s = "".
Proof. intros [|c s] H; [reflexivity | discriminate]. Qed.

Lemma Fields_empty : Fields "" = [].
Proof. reflexivity. Qed.

Lemma Fields_cons_nonempty : forall h f rest,
  Fields h = f :: rest -> Nat.eqb (String.length h) 0 = false.
Proof. intros [|c h] f rest H; [discriminate | reflexivity]. Qed.

(** Past the three header checks, the middleware hands the second field
    to [VerifyToken] and continues with [verifyStep]. *)
Lemma authMiddleware_bearer_step :
  forall (lower : Z -> Z) (verifyToken : string -> option Payload * option GoErr)
         h f0 f1 rest,
  Fields h = f0 :: f1 :: rest ->
  ToLower lower f0 = authorizationTypeBearer ->
  authMiddleware lower verifyToken h = verifyStep (verifyToken f1).
Proof.
  intros lower verifyToken h f0 f1 rest HF HL.
  unfold authMiddleware.
  rewrite (Fields_cons_nonempty _ _ _ HF), HF. cbn -[ToLower verifyStep].
  rewrite HL. reflexivity.
Qed.

(** [VerifyToken] returns a payload without error or an error with a
    [nil] payload: never both, never neither. *)
Lemma VerifyToken_result_shape : forall cd m now tok,
  (exists p, VerifyToken cd m now tok = (Some p, None))
  \/ (exists e, VerifyToken cd m now tok = (None, Some e)).
Proof.
  intros cd m now tok. unfold VerifyToken.
  destruct (ParseWithClaims cd now tok (keyFunc m)) as [claims [e|]].
  - right. destruct e; try (eexists; reflexivity).
    destruct (errorsIs _ ErrTokenExpired); eexists; reflexivity.
  - destruct claims; [left | right]; eexists; reflexivity.
Qed.

(** *** C6: key strength at construction *)

(** C6: [NewJWTMaker s] fails, with the secret-length error and no
    maker, exactly when [s] is shorter than 32 bytes; every maker it
    returns holds a key of at least 32 bytes, so no token can be issued
    under a shorter key. *)
Theorem NewJWTMaker_min_key_len : forall s : string,
  (NewJWTMaker s = (None, Some (ErrSecretKeyLen minSecretKeyLen))
     <-> (String.length s < 32)%nat)
  /\ (forall m e, NewJWTMaker s = (Some m, e) ->
        e = None /\ (32 <= String.length (secretKey m))%nat).
Proof.
  intros s. unfold NewJWTMaker, minSecretKeyLen.
  destruct (Z.of_nat (String.length s) <? 32) eqn:E.
  - apply Z.ltb_lt in E. split.
    + split; intros _; [lia | reflexivity].
    + intros m e H. discriminate.
  - apply Z.ltb_ge in E. split.
    + split; intros H; [discriminate | lia].
    + intros m e H. injection H as <- <-. split; [reflexivity | simpl; lia].
Qed.

(** *** C7: the header checks *)

(** C7 (as stated, refuted): an unsupported scheme is not rejected with
    the bare text "unsupported authorization type"; the message carries
    the lower-cased scheme, here for the header "OAuth xyz" (an ASCII
    header: [strings.ToLower] takes its ASCII path). *)
Lemma authMiddleware_unsupported_message :
  authMiddleware demoToLower (VerifyToken demoCodec demoMaker 0) "OAuth xyz"
    <> Abort StatusUnauthorized (ErrText "unsupported authorization type")
  /\ authMiddleware demoToLower (VerifyToken demoCodec demoMaker 0) "OAuth xyz"
    = Abort StatusUnauthorized (ErrText "unsupported authorization type oauth").
Proof. split; vm_compute; [discriminate | reflexivity]. Qed.

(** C7 (amended): the checks run in order and each rejection is a final
    401: an absent or empty header gets "authorization header not
    provided"; otherwise fewer than two whitespace-separated fields get
    "invalid authorization format"; otherwise a first field whose lower
    case is not "bearer" gets "unsupported authorization type " followed
    by that lower-cased field; a first field whose lower case is
    "bearer" (any case variant) passes on to token verification. *)
Theorem authMiddleware_header_checks :
  forall (lower : Z -> Z) (verifyToken : string -> option Payload * option GoErr) h,
  (h = "" ->
     authMiddleware lower verifyToken h
     = Abort StatusUnauthorized (ErrText "authorization header not provided"))
  /\ (h <> "" -> (List.length (Fields h) < 2)%nat ->
     authMiddleware lower verifyToken h
     = Abort StatusUnauthorized (ErrText "invalid authorization format"))
  /\ (forall f0 f1 rest, Fields h = f0 :: f1 :: rest ->
     ToLower lower f0 <> authorizationTypeBearer ->
     authMiddleware lower verifyToken h
     = Abort StatusUnauthorized
         (ErrText ("unsupported authorization type " ++ ToLower lower f0)))
  /\ (forall f0 f1 rest, Fields h = f0 :: f1 :: rest ->
     ToLower lower f0 = authorizationTypeBearer ->
     authMiddleware lower verifyToken h = verifyStep (verifyToken f1)).
Proof.
  intros lower verifyToken h. split; [|split; [|split]].
  - intros ->. reflexivity.
  - intros Hne Hlt. unfold authMiddleware.
    destruct (Nat.eqb (String.length h) 0) eqn:E.
    + exfalso. apply Hne. now apply length_zero_empty.
    + apply Nat.ltb_lt in Hlt. cbn zeta. rewrite Hlt. reflexivity.
  - intros f0 f1 rest HF HL. unfold authMiddleware.
    rewrite (Fields_cons_nonempty _ _ _ HF), HF. cbn -[ToLower].
    apply String.eqb_neq in HL. rewrite HL. reflexivity.
  - intros f0 f1 rest HF HL. exact (authMiddleware_bearer_step _ _ _ _ _ _ HF HL).
Qed.

(** *** C10: extra fields after the token *)

(** C10: when the first field lower-cases to "bearer", the middleware
    verifies exactly the second field, and the fields after it do not
    change the outcome. *)
Theorem authMiddleware_uses_second_field :
  forall (lower : Z -> Z) (verifyToken : string -> option Payload * option GoErr)
         h h' f0 f1 rest rest',
  Fields h = f0 :: f1 :: rest ->
  Fields h' = f0 :: f1 :: rest' ->
  ToLower lower f0 = authorizationTypeBearer ->
  authMiddleware lower verifyToken h = verifyStep (verifyToken f1)
  /\ authMiddleware lower verifyToken h' = authMiddleware lower verifyToken h.
Proof.
  intros lower verifyToken h h' f0 f1 rest rest' HF HF' HL.
  rewrite (authMiddleware_bearer_step _ _ _ _ _ _ HF HL),
          (authMiddleware_bearer_step _ _ _ _ _ _ HF' HL).
  split; reflexivity.
Qed.

Lemma authMiddleware_uses_second_field_witness :
  Fields "Bearer tok extra" = ["Bearer"; "tok"; "extra"]
  /\ Fields "Bearer  tok x y" = ["Bearer"; "tok"; "x"; "y"]
  /\ ToLower demoToLower "Bearer" = authorizationTypeBearer
  /\ authMiddleware demoToLower (VerifyToken demoCodec demoMaker 0) "Bearer tok extra"
     = verifyStep (VerifyToken demoCodec demoMaker 0 "tok")
  /\ authMiddleware demoToLower (VerifyToken demoCodec demoMaker 0) "Bearer  tok x y"
     = authMiddleware demoToLower (VerifyToken demoCodec demoMaker 0) "Bearer tok extra".
Proof.
  split; [reflexivity|]. split; [reflexivity|]. split; [reflexivity|].
  apply (authMiddleware_uses_second_field demoToLower (VerifyToken demoCodec demoMaker 0)
           "Bearer tok extra" "Bearer  tok x y" "Bearer" "tok" ["extra"] ["x"; "y"]);
    reflexivity.
Defined.

(** *** C1, C9: a token that fails verification *)

(** C1 (code defect): with the JWT maker, a bearer token that fails
    verification does not reach the 401 branch: [VerifyToken] returns a
    [nil] payload with its error and [log.Println(payload.ExpireAt)]
    dereferences it.  Shown for the malformed token "abc" under every
    codec, key and clock, and for the expired token of the
    "ExpiredToken" test case. *)
Theorem authMiddleware_failed_token_panics : forall lower : Z -> Z,
  (forall cd m now,
     VerifyToken cd m now "abc" = (None, Some ErrTokenInvalid)
     /\ authMiddleware lower (VerifyToken cd m now) "Bearer abc" = Panic nilDereference)
  /\ VerifyToken demoCodec demoMaker 101
       (SignedStringHS512 demoCodec (secretKey demoMaker) (mkPayload "1" "alice" 0 100))
     = (None, Some ErrTokenExpired)
  /\ authMiddleware lower (VerifyToken demoCodec demoMaker 101)
       ("bearer " ++ SignedStringHS512 demoCodec (secretKey demoMaker)
                       (mkPayload "1" "alice" 0 100))
     = Panic nilDereference.
Proof.
  intros lower.
  split; [intros cd m now; split; reflexivity |].
  split; vm_compute; reflexivity.
Qed.

(** C9 (code defect): the error path of the middleware is not total:
    for every header that passes the format and scheme checks and whose
    token [VerifyToken] rejects, the middleware panics on the [nil]
    payload instead of answering 401. *)
Theorem authMiddleware_error_path_not_total :
  forall (lower : Z -> Z) cd m now h f0 f1 rest e,
  Fields h = f0 :: f1 :: rest ->
  ToLower lower f0 = authorizationTypeBearer ->
  snd (VerifyToken cd m now f1) = Some e ->
  authMiddleware lower (VerifyToken cd m now) h = Panic nilDereference.
Proof.
  intros lower cd m now h f0 f1 rest e HF HL HE.
  rewrite (authMiddleware_bearer_step _ _ _ _ _ _ HF HL).
  destruct (VerifyToken_result_shape cd m now f1) as [[p Hp] | [e' He']];
    rewrite ?Hp, ?He' in *; [discriminate | reflexivity].
Qed.

Lemma authMiddleware_error_path_not_total_witness :
  Fields "Bearer abc" = ["Bearer"; "abc"]
  /\ ToLower demoToLower "Bearer" = authorizationTypeBearer
  /\ snd (VerifyToken demoCodec demoMaker 0 "abc") = Some ErrTokenInvalid
  /\ authMiddleware demoToLower (VerifyToken demoCodec demoMaker 0) "Bearer abc"
     = Panic nilDereference.
Proof.
  split; [reflexivity|]. split; [reflexivity|]. split; [reflexivity|].
  apply (authMiddleware_error_path_not_total demoToLower demoCodec demoMaker 0
           "Bearer abc" "Bearer" "abc" [] ErrTokenInvalid); reflexivity.
Defined.

(** *** C8: the owner check *)

(** C8: for a well-formed id, the handler first loads the account; a
    missing account is NotFound (404) whatever the authenticated
    identity; a found account is deleted when the payload's identity is
    its owner, and refused with 401 without deletion otherwise. *)
Theorem deleteAccount_owner_check : forall store payload id,
  1 <= id ->
  hd_error (snd (deleteAccount store payload id)) = Some (CallGetAccount id)
  /\ (GetAccount store id = inr ErrNoRows ->
      forall payload',
      deleteAccount store payload id = (404, [CallGetAccount id])
      /\ deleteAccount store payload' id = deleteAccount store payload id)
  /\ (forall account, GetAccount store id = inl account ->
      Owner account = Username payload ->
      snd (deleteAccount store payload id)
        = [CallGetAccount id; CallDeleteAccount id]
      /\ (DeleteAccount store id = None ->
          fst (deleteAccount store payload id) = 200))
  /\ (forall account, GetAccount store id = inl account ->
      Owner account <> Username payload ->
      deleteAccount store payload id = (StatusUnauthorized, [CallGetAccount id])).
Proof.
  intros store payload id Hid.
  assert (Hlt : (id <? 1) = false) by (apply Z.ltb_ge; lia).
  unfold deleteAccount. rewrite Hlt.
  split; [|split; [|split]].
  - destruct (GetAccount store id) as [account | [|]]; try reflexivity.
    destruct (negb _); [reflexivity|].
    destruct (DeleteAccount store id); reflexivity.
  - intros HG payload'. rewrite HG. split; reflexivity.
  - intros account HG HO. rewrite HG, HO, String.eqb_refl. simpl.
    split; [destruct (DeleteAccount store id); reflexivity |].
    intros HD. rewrite HD. reflexivity.
  - intros account HG HO. rewrite HG.
    apply String.eqb_neq in HO. rewrite HO. reflexivity.
Qed.

Lemma deleteAccount_owner_check_witness :
  1 <= 7
  /\ deleteAccount demoStore (mkPayload "1" "alice" 0 100) 7
     = (200, [CallGetAccount 7; CallDeleteAccount 7])
  /\ deleteAccount demoStore (mkPayload "2" "bob" 0 100) 7
     = (StatusUnauthorized, [CallGetAccount 7])
  /\ hd_error (snd (deleteAccount demoStore (mkPayload "2" "bob" 0 100) 8))
     = Some (CallGetAccount 8).
Proof.
  split; [lia|]. split; [reflexivity|]. split; [reflexivity|].
  destruct (deleteAccount_owner_check demoStore (mkPayload "2" "bob" 0 100) 8)
    as [H _]; [lia | exact H].
Defined.

(** *** C2: algorithm confusion *)

(** C2: a token whose header does not claim an HMAC algorithm (an
    asymmetric one, "none", an unknown one, or none at all) is refused
    by [VerifyToken], with [ErrTokenInvalid]: ECDSA by the key function,
    the others because the secret bytes are not a key of their type, an
    unknown or missing algorithm by the parser. *)
Theorem VerifyToken_rejects_non_hmac :
  forall cd m now tok h c s hb oalg,
  splitDot tok = [h; c; s] ->
  DecodeSegment cd h = Some hb ->
  UnmarshalHeaderAlg cd hb = Some oalg ->
  claimsHMAC oalg = false ->
  VerifyToken cd m now tok = (None, Some ErrTokenInvalid).
Proof.
  intros cd m now tok h c s hb oalg Hsplit Hh Hhdr Hnh.
  unfold VerifyToken, ParseWithClaims. rewrite Hsplit, Hh, Hhdr.
  destruct (DecodeSegment cd c) as [cb|]; [|reflexivity].
  destruct (UnmarshalPayload cd cb) as [p|]; [|reflexivity].
  destruct oalg as [alg|]; [|reflexivity].
  simpl in Hnh. destruct (GetSigningMethod alg) as [meth|]; [|reflexivity].
  destruct meth; try discriminate Hnh; cbn -[errorsIs];
    unfold Valid; destruct (now >? ExpireAt p);
    try destruct (DecodeSegment cd s); reflexivity.
Qed.

Lemma VerifyToken_rejects_non_hmac_witness :
  splitDot "RS256.alice.sig" = ["RS256"; "alice"; "sig"]
  /\ DecodeSegment demoCodec "RS256" = Some "RS256"
  /\ UnmarshalHeaderAlg demoCodec "RS256" = Some (Some "RS256")
  /\ claimsHMAC (Some "RS256") = false
  /\ VerifyToken demoCodec demoMaker 0 "RS256.alice.sig"
     = (None, Some ErrTokenInvalid).
Proof.
  split; [reflexivity|]. split; [reflexivity|]. split; [reflexivity|].
  split; [reflexivity|].
  apply (VerifyToken_rejects_non_hmac demoCodec demoMaker 0 "RS256.alice.sig"
           "RS256" "alice" "sig" "RS256" (Some "RS256")); reflexivity.
Defined.

(** *** C3: the error taxonomy of [VerifyToken] *)

(** C3 (as stated, refuted): a signature failure has no error of its
    own.  A tampered token (claims segment changed after signing) and a
    token signed under another key get [ErrTokenInvalid], the very error
    a structurally malformed string gets. *)
Lemma VerifyToken_no_signature_error :
  let good := SignedStringHS512 demoCodec (secretKey demoMaker) demoPayload in
  let tampered := "HS512.mallory." ++ nth 2 (splitDot good) "" in
  let wrongKey :=
    SignedStringHS512 demoCodec "fedcba9876543210fedcba9876543210" demoPayload in
  VerifyToken demoCodec demoMaker 0 good = (Some demoPayload, None)
  /\ VerifyToken demoCodec demoMaker 0 tampered = (None, Some ErrTokenInvalid)
  /\ VerifyToken demoCodec demoMaker 0 wrongKey = (None, Some ErrTokenInvalid)
  /\ VerifyToken demoCodec demoMaker 0 "abc" = (None, Some ErrTokenInvalid).
Proof. vm_compute. repeat split; reflexivity. Qed.

(** C3 (amended): [VerifyToken] has two errors.  Every failure returns a
    [nil] payload with [ErrTokenExpired] or [ErrTokenInvalid]; it is
    [ErrTokenExpired] exactly when the token is well formed, claims an
    HMAC algorithm, carries a valid HMAC under the maker's key and its
    payload has expired.  Malformed input, a signature mismatch and a
    refused algorithm all give [ErrTokenInvalid]. *)
Theorem VerifyToken_error_kinds : forall cd m now tok,
  (forall e, snd (VerifyToken cd m now tok) = Some e ->
     fst (VerifyToken cd m now tok) = None
     /\ (e = ErrTokenExpired \/ e = ErrTokenInvalid))
  /\ (VerifyToken cd m now tok = (None, Some ErrTokenExpired)
      <-> AuthenticExpired cd (secretKey m) now tok).
Proof.
  intros cd m now tok. split.
  - intros e. unfold VerifyToken.
    destruct (ParseWithClaims cd now tok (keyFunc m)) as [claims [e'|]].
    + destruct e'; try (intros H; injection H as <-; auto).
      destruct (errorsIs _ ErrTokenExpired); intros H; injection H as <-; auto.
    + destruct claims; intros H; [discriminate | injection H as <-; auto].
  - split.
    + intros H. unfold VerifyToken, ParseWithClaims in H.
      destruct (splitDot tok) as [|h [|c [|s [|x l]]]] eqn:Hs;
        try (cbn in H; discriminate H).
      destruct (DecodeSegment cd h) as [hb|] eqn:Hh; [|cbn in H; discriminate H].
      destruct (UnmarshalHeaderAlg cd hb) as [oalg|] eqn:Hhdr;
        [|cbn in H; discriminate H].
      destruct (DecodeSegment cd c) as [cb|] eqn:Hc; [|cbn in H; discriminate H].
      destruct (UnmarshalPayload cd cb) as [p|] eqn:Hp;
        [|cbn in H; discriminate H].
      destruct oalg as [alg|]; [|cbn in H; discriminate H].
      destruct (GetSigningMethod alg) as [meth|] eqn:Halg;
        [|cbn in H; discriminate H].
      destruct meth as [bits|bits|bits|bits| |];
        unfold Valid in H;
        [ | cbn -[errorsIs] in H; destruct (now >? ExpireAt p);
            destruct (DecodeSegment cd s); cbn in H; discriminate H .. ].
      cbn -[errorsIs] in H.
      destruct (now >? ExpireAt p) eqn:Hexp;
        destruct (DecodeSegment cd s) as [sig|] eqn:Hsig; cbn in H;
        try discriminate H;
        destruct (String.eqb sig (HmacSum cd bits (secretKey m) (h ++ String "." c)))
          eqn:Heq; cbn in H; try discriminate H.
      apply String.eqb_eq in Heq. subst sig.
      exists h, c, s, hb, alg, bits, cb, p.
      repeat split; auto.
      unfold Valid. rewrite Hexp. reflexivity.
    + intros (h & c & s & hb & alg & bits & cb & p & Hs & Hh & Hhdr & Halg
              & Hc & Hp & Hsig & Hv).
      unfold VerifyToken, ParseWithClaims.
      rewrite Hs, Hh, Hhdr, Hc, Hp, Halg. cbn -[errorsIs Valid].
      rewrite Hv. cbn -[errorsIs]. rewrite Hsig, String.eqb_refl. reflexivity.
Qed.

(** *** Tokens made by [CreateToken] *)

Lemma string_app_assoc : forall a b c : string, (a ++ b) ++ c = a ++ (b ++ c).
Proof. induction a as [|x a IH]; intros b c; simpl; [reflexivity | now rewrite IH]. Qed.

Lemma string_app_nil_r : forall s : string, s ++ "" = s.
Proof. induction s as [|x s IH]; simpl; [reflexivity | now rewrite IH]. Qed.

Lemma splitDotAux_noDot : forall s rest cur,
  noDot s = true ->
  splitDotAux (s ++ rest) cur
  = splitDotAux rest (rev (list_ascii_of_string s) ++ cur).
Proof.
  induction s as [|x s IH]; intros rest cur H; [reflexivity|].
  simpl in H. apply andb_prop in H as [Hx Hs]. apply negb_true_iff in Hx.
  simpl. rewrite Hx, IH by exact Hs. now rewrite <- app_assoc.
Qed.

Lemma string_of_rev_list : forall s,
  string_of_rev (rev (list_ascii_of_string s) ++ []) = s.
Proof.
  intros s. unfold string_of_rev.
  now rewrite app_nil_r, rev_involutive, string_of_list_ascii_of_string.
Qed.

Lemma splitDot_three : forall a b c,
  noDot a = true -> noDot b = true -> noDot c = true ->
  splitDot (a ++ "." ++ b ++ "." ++ c) = [a; b; c].
Proof.
  intros a b c Ha Hb Hc. unfold splitDot.
  rewrite splitDotAux_noDot by exact Ha. simpl.
  rewrite splitDotAux_noDot by exact Hb. simpl.
  replace (splitDotAux c []) with (splitDotAux (c ++ "") [])
    by now rewrite string_app_nil_r.
  rewrite splitDotAux_noDot by exact Hc.
  simpl. rewrite !string_of_rev_list. reflexivity.
Qed.

(** A token signed by [SignedStringHS512] under the maker's key, whose
    claims segment decodes to [q], is accepted with [q] while [q] is
    valid and refused with [ErrTokenExpired] afterwards. *)
Lemma VerifyToken_SignedString_decoded : forall cd m now p q,
  SegmentRoundTrip cd (MarshalHeader cd "HS512") ->
  SegmentRoundTrip cd (MarshalPayload cd p) ->
  SegmentRoundTrip cd (HmacSum cd 512 (secretKey m) (SigningString cd "HS512" p)) ->
  UnmarshalHeaderAlg cd (MarshalHeader cd "HS512") = Some (Some "HS512") ->
  UnmarshalPayload cd (MarshalPayload cd p) = Some q ->
  VerifyToken cd m now (SignedStringHS512 cd (secretKey m) p)
  = if now >? ExpireAt q then (None, Some ErrTokenExpired) else (Some q, None).
Proof.
  intros cd m now p q [Hh Hhn] [Hc Hcn] [Hs Hsn] Hhdr Hp.
  assert (Hsplit : splitDot (SignedStringHS512 cd (secretKey m) p)
    = [EncodeSegment cd (MarshalHeader cd "HS512");
       EncodeSegment cd (MarshalPayload cd p);
       EncodeSegment cd (HmacSum cd 512 (secretKey m) (SigningString cd "HS512" p))]).
  { unfold SignedStringHS512. cbv zeta. unfold SigningString at 1.
    rewrite string_app_assoc. apply splitDot_three; assumption. }
  unfold VerifyToken, ParseWithClaims.
  rewrite Hsplit, Hh, Hhdr, Hc, Hp.
  cbn -[errorsIs Valid SigningString]. unfold Valid.
  rewrite Hs. unfold SigningString. rewrite String.eqb_refl.
  destruct (now >? ExpireAt q); reflexivity.
Qed.


(** *** UTF-8 lemmas *)

Lemma splitAt_app : forall n s,
  fst (splitAt n s) ++ snd (splitAt n s) = s.
Proof.
  induction n as [|n IH]; intros [|c s]; try reflexivity.
  simpl. specialize (IH s). destruct (splitAt n s) as [a b]. simpl in *.
  now rewrite IH.
Qed.

Lemma splitAt_length : forall n s,
  (n <= String.length s)%nat ->
  String.length (snd (splitAt n s)) = (String.length s - n)%nat.
Proof.
  induction n as [|n IH]; intros [|c s] H; simpl in *; try lia.
  specialize (IH s ltac:(lia)). destruct (splitAt n s) as [a b]. exact IH.
Qed.

(** A rune takes between one byte and what is left of the string. *)
Lemma decodeRune_width : forall c s,
  (1 <= snd (decodeRune (String c s)) <= S (String.length s))%nat.
Proof.
  intros c s. unfold decodeRune. cbv zeta.
  repeat match goal with
  | |- context [if ?b then _ else _] => destruct b
  | |- context [match leadInfo ?b with _ => _ end] =>
      destruct (leadInfo b) as [[[? ?] ?]|]
  | |- context [match ?t with EmptyString => _ | String _ _ => _ end] =>
      is_var t; destruct t
  end; simpl; lia.
Qed.

Lemma concat_empty_cons : forall x l,
  String.concat "" (x :: l) = x ++ String.concat "" l.
Proof. intros x [|y l]; [symmetry; apply string_app_nil_r | reflexivity]. Qed.

Lemma runesAux_step : forall fuel c s,
  runesAux (S fuel) (String c s)
  = let '(r, w) := decodeRune (String c s) in
    let '(bs, rest) := splitAt w (String c s) in
    (r, bs) :: runesAux fuel rest.
Proof. reflexivity. Qed.

(** The bytes of the runes of [s], put back together, are [s]. *)
Lemma runesAux_concat : forall fuel s,
  (String.length s <= fuel)%nat ->
  String.concat "" (map snd (runesAux fuel s)) = s.
Proof.
  induction fuel as [|fuel IH]; intros [|c s] H; simpl in H; try reflexivity; [lia|].
  rewrite runesAux_step.
  pose proof (decodeRune_width c s) as Hw.
  destruct (decodeRune (String c s)) as [r w] eqn:Hd. simpl in Hw.
  pose proof (splitAt_app w (String c s)) as Happ.
  pose proof (splitAt_length w (String c s) ltac:(simpl; lia)) as Hlen.
  destruct (splitAt w (String c s)) as [bs rest]. cbn [fst snd] in Happ, Hlen.
  cbn [String.length] in Hlen. cbn [map snd].
  rewrite concat_empty_cons, IH by lia. exact Happ.
Qed.

Lemma runes_concat : forall s, String.concat "" (map snd (runes s)) = s.
Proof. intros s. apply runesAux_concat. lia. Qed.

(** [encoding/json] gives back a valid UTF-8 string unchanged. *)
Lemma jsonString_valid : forall s, validUTF8 s = true -> jsonString s = s.
Proof.
  intros s H. unfold jsonString. rewrite <- (runes_concat s) at 2. f_equal.
  apply map_ext_in. intros [r bs] Hin. unfold validUTF8 in H.
  rewrite forallb_forall in H. specialize (H _ Hin). simpl in H |- *.
  destruct ((r =? RuneError) && (String.length bs =? 1)%nat); [discriminate | reflexivity].
Qed.

(** *** C4: create then verify *)

(** C4 (as stated, refuted): [CreateToken] does not succeed for every
    identity; the empty identity is refused by [NewPayload]. *)
Lemma CreateToken_empty_identity_fails :
  CreateTokenFor demoCodec demoMaker "" 60 0 (Some "1")
  = ("", None, Some ErrInvalidIdentity).
Proof. reflexivity. Qed.

(** C4 (amended): for every non-empty identity [u] and duration [d > 0],
    when the random id is generated, [CreateToken(u, d)] succeeds, and
    [VerifyToken] at the same instant returns the payload as JSON gives
    it back, on which [Valid] succeeds: its identity is [u] with every
    byte that is not valid UTF-8 replaced by U+FFFD, as [encoding/json]
    does; for an identity that is valid UTF-8 it is the created payload
    and its identity is [u].  (The codec laws say that base64url
    decoding inverts its encoding and that JSON decoding gives back
    [jsonPayload p].) *)
Theorem CreateToken_VerifyToken_roundtrip : forall cd m u d now id,
  u <> "" -> 0 < d ->
  JSONCodecAt cd (secretKey m) (mkPayload id u now (now + d)) ->
  exists tok p,
    CreateTokenFor cd m u d now (Some id) = (tok, Some p, None)
    /\ VerifyToken cd m now tok = (Some (jsonPayload p), None)
    /\ Username (jsonPayload p) = jsonString u
    /\ (validUTF8 u = true -> jsonPayload p = p /\ Username p = u)
    /\ Valid now (jsonPayload p) = None.
Proof.
  intros cd m u d now id Hu Hd (Hh & Hc & Hs & Hhdr & Hp).
  exists (SignedStringHS512 cd (secretKey m) (mkPayload id u now (now + d))),
         (mkPayload id u now (now + d)).
  assert (Hexp : (now >? now + d) = false) by (rewrite Z.gtb_ltb; apply Z.ltb_ge; lia).
  split; [|split; [|split; [|split]]].
  - unfold CreateTokenFor, NewPayload.
    apply String.eqb_neq in Hu. rewrite Hu. reflexivity.
  - rewrite (VerifyToken_SignedString_decoded _ _ _ _ _ Hh Hc Hs Hhdr Hp).
    simpl. now rewrite Hexp.
  - reflexivity.
  - intros Hv. unfold jsonPayload. simpl. rewrite (jsonString_valid u Hv).
    split; reflexivity.
  - unfold Valid. simpl. now rewrite Hexp.
Qed.

Lemma CreateToken_VerifyToken_roundtrip_witness :
  "alice" <> "" /\ 0 < 100
  /\ JSONCodecAt demoCodec (secretKey demoMaker) (mkPayload "1" "alice" 0 (0 + 100))
  /\ exists tok p,
       CreateTokenFor demoCodec demoMaker "alice" 100 0 (Some "1") = (tok, Some p, None)
       /\ VerifyToken demoCodec demoMaker 0 tok = (Some (jsonPayload p), None)
       /\ Username (jsonPayload p) = jsonString "alice"
       /\ (validUTF8 "alice" = true -> jsonPayload p = p /\ Username p = "alice")
       /\ Valid 0 (jsonPayload p) = None.
Proof.
  assert (Hc : JSONCodecAt demoCodec (secretKey demoMaker)
                 (mkPayload "1" "alice" 0 (0 + 100)))
    by (vm_compute; repeat split).
  split; [discriminate|]. split; [lia|]. split; [exact Hc|].
  apply (CreateToken_VerifyToken_roundtrip demoCodec demoMaker "alice" 100 0 "1");
    [discriminate | lia | exact Hc].
Defined.

(** *** C5: negative durations *)



(** ** Further properties of the maker and the middleware *)

(** *** [VerifyToken] *)

(** [VerifyToken] accepts a token exactly when it is authentic (see
    [authenticPayload]) and its payload is still valid; an authentic but
    expired token gets [ErrTokenExpired]; anything else [ErrTokenInvalid]. *)
Theorem VerifyToken_characterization : forall cd m now tok,
  VerifyToken cd m now tok
  = match authenticPayload cd (secretKey m) tok with
    | Some p =>
        if now >? ExpireAt p then (None, Some ErrTokenExpired) else (Some p, None)
    | None => (None, Some ErrTokenInvalid)
    end.
Proof.
  intros cd m now tok.
  unfold VerifyToken, ParseWithClaims, authenticPayload.
  destruct (splitDot tok) as [|h [|c [|s [|x l]]]]; try reflexivity.
  destruct (DecodeSegment cd h) as [hb|]; [|reflexivity].
  destruct (UnmarshalHeaderAlg cd hb) as [oalg|]; [|reflexivity].
  destruct (DecodeSegment cd c) as [cb|]; [|reflexivity].
  destruct (UnmarshalPayload cd cb) as [p|]; [|reflexivity].
  destruct oalg as [alg|]; [|reflexivity].
  destruct (GetSigningMethod alg) as [meth|]; [|reflexivity].
  unfold Valid.
  destruct meth as [bits|bits|bits|bits| |]; cbn -[errorsIs];
    destruct (now >? ExpireAt p) eqn:Hexp; try reflexivity;
    destruct (DecodeSegment cd s) as [sig|]; try reflexivity;
    destruct (String.eqb sig _); cbn -[errorsIs]; rewrite ?Hexp; reflexivity.
Qed.

(** The clock only decides expiry: a token accepted at [t] is accepted,
    with the same payload, at every earlier [t']; a token expired at
    [t'] is expired at every later [t]; and [ErrTokenInvalid] does not
    depend on the clock. *)
Theorem VerifyToken_clock_monotone : forall cd m tok t t',
  t' <= t ->
  (forall p, VerifyToken cd m t tok = (Some p, None) ->
             VerifyToken cd m t' tok = (Some p, None))
  /\ (VerifyToken cd m t' tok = (None, Some ErrTokenExpired) ->
      VerifyToken cd m t tok = (None, Some ErrTokenExpired))
  /\ (VerifyToken cd m t tok = (None, Some ErrTokenInvalid)
      <-> VerifyToken cd m t' tok = (None, Some ErrTokenInvalid)).
Proof.
  intros cd m tok t t' Hle.
  rewrite !VerifyToken_characterization.
  destruct (authenticPayload cd (secretKey m) tok) as [p|].
  - destruct (t >? ExpireAt p) eqn:Ht, (t' >? ExpireAt p) eqn:Ht';
      rewrite ?Z.gtb_ltb, ?Z.ltb_lt, ?Z.ltb_ge in Ht, Ht'; try lia;
      repeat split; intros; try discriminate; assumption.
  - repeat split; intros; first [assumption | discriminate | reflexivity].
Qed.

Lemma VerifyToken_clock_monotone_witness :
  let tok := SignedStringHS512 demoCodec (secretKey demoMaker) demoPayload in
  50 <= 100
  /\ VerifyToken demoCodec demoMaker 100 tok = (Some demoPayload, None)
  /\ VerifyToken demoCodec demoMaker 50 tok = (Some demoPayload, None).
Proof.
  intros tok.
  assert (H : VerifyToken demoCodec demoMaker 100 tok = (Some demoPayload, None))
    by (vm_compute; reflexivity).
  split; [lia|]. split; [exact H|].
  destruct (VerifyToken_clock_monotone demoCodec demoMaker tok 100 50) as [Hacc _];
    [lia | exact (Hacc _ H)].
Defined.

(** *** Fields of the authorization header *)

Lemma fieldsAux_noSpace : forall s rest cur,
  noSpace s = true ->
  fieldsAux (s ++ rest) cur = fieldsAux rest (rev (list_ascii_of_string s) ++ cur)%list.
Proof.
  induction s as [|x s IH]; intros rest cur H; [reflexivity|].
  simpl in H. apply andb_prop in H as [Hx Hs]. apply negb_true_iff in Hx.
  simpl. rewrite Hx, IH by exact Hs. now rewrite <- app_assoc.
Qed.

Lemma fieldsAux_trailing_space : forall s cur c,
  isAsciiSpace c = true ->
  fieldsAux (s ++ String c "") cur = fieldsAux s cur.
Proof.
  induction s as [|x s IH]; intros cur c Hc; simpl.
  - rewrite Hc. destruct cur; reflexivity.
  - destruct (isAsciiSpace x); [destruct cur|]; rewrite ?IH by exact Hc; reflexivity.
Qed.

Lemma rev_list_ascii_nonempty : forall s,
  s <> "" -> (rev (list_ascii_of_string s) ++ [])%list <> [].
Proof.
  intros [|c s] H; [contradiction|]. simpl. rewrite app_nil_r.
  intros E. apply app_eq_nil in E as [_ E]. discriminate.
Qed.

Lemma isASCII_app : forall a b, isASCII (a ++ b) = isASCII a && isASCII b.
Proof.
  induction a as [|c a IH]; intros b; [reflexivity|].
  simpl. rewrite IH. apply andb_assoc.
Qed.

Lemma Fields_two : forall a b,
  a <> "" -> b <> "" -> isASCII a = true -> isASCII b = true ->
  noSpace a = true -> noSpace b = true ->
  Fields (a ++ " " ++ b) = [a; b].
Proof.
  intros a b Ha Hb Hia Hib Hsa Hsb. unfold Fields.
  rewrite !isASCII_app, Hia, Hib. cbn [isASCII andb byteZ].
  change (Z.of_N (N_of_ascii " ") <? RuneSelf) with true. cbn [andb].
  rewrite fieldsAux_noSpace by exact Hsa. simpl.
  destruct (rev (list_ascii_of_string a) ++ [])%list as [|x l] eqn:Ea;
    [exfalso; exact (rev_list_ascii_nonempty a Ha Ea)|].
  replace (fieldsAux b []) with (fieldsAux (b ++ "") []) by now rewrite string_app_nil_r.
  rewrite fieldsAux_noSpace by exact Hsb. simpl.
  destruct (rev (list_ascii_of_string b) ++ [])%list as [|y k] eqn:Eb;
    [exfalso; exact (rev_list_ascii_nonempty b Hb Eb)|].
  rewrite <- Ea, <- Eb, !string_of_rev_list. reflexivity.
Qed.

(** *** Outcomes of the middleware *)

(** A header written as [scheme ++ " " ++ token], the form the tests'
    [addAuthHeader] builds with [fmt.Sprintf("%s %s", ...)], with a
    bearer scheme in any letter case and both parts non-empty, ASCII
    (as a base64url token is) and free of whitespace, reaches
    [VerifyToken] with exactly that token. *)
Theorem authMiddleware_bearer_header : forall lower v scheme tok,
  scheme <> "" -> tok <> "" ->
  isASCII scheme = true -> isASCII tok = true ->
  noSpace scheme = true -> noSpace tok = true ->
  ToLower lower scheme = authorizationTypeBearer ->
  authMiddleware lower v (scheme ++ " " ++ tok) = verifyStep (v tok).
Proof.
  intros lower v scheme tok Hs Ht His Hit Hss Hst HL.
  apply (authMiddleware_bearer_step lower v _ scheme tok []); [|exact HL].
  apply Fields_two; assumption.
Qed.

Lemma authMiddleware_bearer_header_witness :
  authMiddleware demoToLower (fun t => (Some (mkPayload "id" t 0 0), None))
    ("BeArEr" ++ " " ++ "abc")
  = verifyStep (Some (mkPayload "id" "abc" 0 0), None).
Proof.
  apply (authMiddleware_bearer_header demoToLower
           (fun t => (Some (mkPayload "id" t 0 0), None))
           "BeArEr" "abc"); first [discriminate | reflexivity].
Defined.


(** *** Whitespace around the header *)

Lemma isAsciiSpace_IsSpace : forall c,
  isAsciiSpace c = true -> byteZ c < RuneSelf /\ IsSpace (byteZ c) = true.
Proof.
  intros [[] [] [] [] [] [] [] []] H; try discriminate; split; reflexivity.
Qed.

Lemma leadInfo_spec : forall b sz lo hi,
  leadInfo b = Some (sz, lo, hi) -> (2 <= sz <= 4)%nat /\ 128 <= lo.
Proof.
  intros b sz lo hi H. unfold leadInfo in H.
  repeat match type of H with context [if ?x then _ else _] => destruct x end;
    try discriminate; injection H as <- <- <-; split; lia.
Qed.

(** An ASCII byte after the end of [s] does not change the first rune
    of [s]: it is not a continuation byte. *)
Lemma decodeRune_app_ascii : forall c0 s c,
  byteZ c < RuneSelf ->
  decodeRune (String c0 s ++ String c "") = decodeRune (String c0 s).
Proof.
  intros c0 s c Hc. unfold RuneSelf in Hc.
  destruct s as [|c1 [|c2 [|c3 s]]]; cbn [append]; unfold decodeRune; cbv zeta;
    destruct (byteZ c0 <? RuneSelf); try reflexivity;
    destruct (leadInfo (byteZ c0)) as [[[sz lo] hi]|] eqn:EL; try reflexivity;
    destruct (leadInfo_spec _ _ _ _ EL) as [Hsz Hlo]; unfold isCont;
    repeat match goal with |- context [if ?b then _ else _] => destruct b eqn:? end;
    try reflexivity; exfalso;
    repeat match goal with
    | H : _ = true |- _ => revert H
    | H : _ = false |- _ => revert H
    end;
    cbn [String.length];
    rewrite ?orb_true_iff, ?orb_false_iff, ?andb_true_iff, ?andb_false_iff,
      ?negb_true_iff, ?negb_false_iff, ?Nat.ltb_lt, ?Nat.ltb_ge, ?Nat.leb_le,
      ?Nat.leb_gt, ?Z.ltb_lt, ?Z.ltb_ge, ?Z.leb_le, ?Z.leb_gt;
    intros; lia.
Qed.

Lemma splitAt_app_l : forall n s t,
  (n <= String.length s)%nat ->
  splitAt n (s ++ t) = (fst (splitAt n s), snd (splitAt n s) ++ t).
Proof.
  induction n as [|n IH]; intros [|c s] t H; simpl in *; try reflexivity; [lia|].
  rewrite IH by lia. destruct (splitAt n s). reflexivity.
Qed.

Lemma runesAux_fuel : forall f g s,
  (String.length s <= f)%nat -> (String.length s <= g)%nat ->
  runesAux f s = runesAux g s.
Proof.
  induction f as [|f IH]; intros [|g] [|c s] Hf Hg; simpl in Hf, Hg;
    try reflexivity; try lia.
  rewrite !runesAux_step.
  pose proof (decodeRune_width c s) as Hw.
  destruct (decodeRune (String c s)) as [r w]. simpl in Hw.
  pose proof (splitAt_length w (String c s) ltac:(simpl; lia)) as Hlen.
  destruct (splitAt w (String c s)) as [bs rest]. cbn [snd String.length] in Hlen.
  f_equal. apply IH; lia.
Qed.

Lemma runesAux_app_ascii : forall f s c,
  byteZ c < RuneSelf -> (String.length s < f)%nat ->
  runesAux f (s ++ String c "") = (runesAux f s ++ [(byteZ c, String c "")])%list.
Proof.
  induction f as [|f IH]; intros s c Hc Hf; [lia|].
  destruct s as [|c0 s].
  - cbn [append]. rewrite runesAux_step. unfold decodeRune.
    cbv zeta. apply Z.ltb_lt in Hc. rewrite Hc. destruct f; reflexivity.
  - cbn [append]. rewrite !runesAux_step.
    change (String c0 (s ++ String c "")) with (String c0 s ++ String c "").
    rewrite (decodeRune_app_ascii c0 s c Hc).
    pose proof (decodeRune_width c0 s) as Hw.
    destruct (decodeRune (String c0 s)) as [r w]. simpl in Hw.
    rewrite (splitAt_app_l w (String c0 s) _ ltac:(simpl; lia)).
    pose proof (splitAt_length w (String c0 s) ltac:(simpl; lia)) as Hlen.
    destruct (splitAt w (String c0 s)) as [bs rest]. cbn [fst snd String.length] in *.
    rewrite IH by (assumption || (simpl in Hf; lia)). reflexivity.
Qed.

Lemma length_app_char : forall s c,
  String.length (s ++ String c "") = S (String.length s).
Proof. induction s as [|x s IH]; intros c; simpl; [reflexivity | now rewrite IH]. Qed.

Lemma runes_app_ascii : forall s c,
  byteZ c < RuneSelf ->
  runes (s ++ String c "") = (runes s ++ [(byteZ c, String c "")])%list.
Proof.
  intros s c Hc. unfold runes. rewrite length_app_char.
  rewrite runesAux_app_ascii by (assumption || lia).
  f_equal. apply runesAux_fuel; lia.
Qed.

Lemma fieldsFuncAux_app_space : forall f rs r bs start,
  f r = true ->
  fieldsFuncAux f (rs ++ [(r, bs)])%list start = fieldsFuncAux f rs start.
Proof.
  intros f rs r bs. induction rs as [|[r' bs'] rs IH]; intros start Hr; simpl.
  - rewrite Hr. destruct start; reflexivity.
  - destruct (f r'); [destruct start|]; rewrite ?IH by exact Hr; reflexivity.
Qed.

Lemma isASCII_cons_ascii : forall c s,
  byteZ c < RuneSelf -> isASCII (String c s) = isASCII s.
Proof. intros c s Hc. simpl. apply Z.ltb_lt in Hc. now rewrite Hc. Qed.

(** [strings.Fields] drops an ASCII whitespace byte in front of [s]. *)
Lemma Fields_leading_space : forall c s,
  isAsciiSpace c = true -> Fields (String c s) = Fields s.
Proof.
  intros c s Hs. destruct (isAsciiSpace_IsSpace c Hs) as [Ha Hsp].
  unfold Fields. rewrite (isASCII_cons_ascii c s Ha).
  destruct (isASCII s).
  - simpl. rewrite Hs. reflexivity.
  - unfold FieldsFunc, runes. cbn [String.length]. rewrite runesAux_step.
    unfold decodeRune at 1. cbv zeta. apply Z.ltb_lt in Ha. rewrite Ha.
    cbn [splitAt fieldsFuncAux]. rewrite Hsp. reflexivity.
Qed.

(** [strings.Fields] drops an ASCII whitespace byte after [s]. *)
Lemma Fields_trailing_space : forall s c,
  isAsciiSpace c = true -> Fields (s ++ String c "") = Fields s.
Proof.
  intros s c Hs. destruct (isAsciiSpace_IsSpace c Hs) as [Ha Hsp].
  unfold Fields. rewrite isASCII_app, (isASCII_cons_ascii c "" Ha), andb_true_r.
  destruct (isASCII s).
  - apply fieldsAux_trailing_space. exact Hs.
  - unfold FieldsFunc. rewrite (runes_app_ascii s c Ha).
    apply fieldsFuncAux_app_space. exact Hsp.
Qed.

Lemma authMiddleware_same_fields : forall lower v h h',
  h <> "" -> h' <> "" -> Fields h = Fields h' ->
  authMiddleware lower v h = authMiddleware lower v h'.
Proof.
  intros lower v [|c h] [|c' h'] Hh Hh' HF; try contradiction.
  unfold authMiddleware. cbn [String.length Nat.eqb]. rewrite HF. reflexivity.
Qed.

(** A header that is not empty keeps its outcome when an ASCII
    whitespace byte is put before it or after it, whatever bytes it
    holds: [strings.Fields] drops the byte on its ASCII path and on its
    Unicode path. *)
Theorem authMiddleware_whitespace_insensitive : forall lower v h c,
  isAsciiSpace c = true -> h <> "" ->
  authMiddleware lower v (String c h) = authMiddleware lower v h
  /\ authMiddleware lower v (h ++ String c "") = authMiddleware lower v h.
Proof.
  intros lower v h c Hc Hh. split; apply authMiddleware_same_fields; try assumption.
  - discriminate.
  - apply Fields_leading_space. exact Hc.
  - destruct h; [contradiction | discriminate].
  - apply Fields_trailing_space. exact Hc.
Qed.

Lemma authMiddleware_whitespace_insensitive_witness :
  isAsciiSpace " " = true /\ ("Bearer" ++ nbsp ++ "tok") <> ""
  /\ authMiddleware demoToLower (fun _ => (None, Some ErrTokenInvalid))
       (String " " ("Bearer" ++ nbsp ++ "tok"))
     = authMiddleware demoToLower (fun _ => (None, Some ErrTokenInvalid))
         ("Bearer" ++ nbsp ++ "tok").
Proof.
  split; [reflexivity|]. split; [discriminate|].
  apply (authMiddleware_whitespace_insensitive demoToLower _ ("Bearer" ++ nbsp ++ "tok") " ");
    [reflexivity | discriminate].
Defined.
